(** * Coffee AI Assistant: the question service and its HTTP surface

    A shallow embedding of [main.py]: the two route handlers [root] and
    [ask_coffee_endpoint], the service function [ask_coffee_question], and
    the Python machinery they rest on (truthiness, f-strings, attribute and
    index access on a dynamically shaped response, [try]/[except] dispatch
    over an exception class hierarchy).

    Process start is embedded too: the API key of lines 23 and 48-50,
    [configure_monocle_telemetry] of [telemetry_monocle.py] and the module
    body of [app.py]; and so is the request loop of the SDK client that
    lines 48-50 build with its defaults.

    The completion provider is outside the program.  It is a section
    variable: an arbitrary, possibly stateful function from a completion
    request to either a response value or a raised exception.  Everything
    the handlers do to the outside (log lines, provider calls) is recorded
    in a trace. *)

From Stdlib Require Import String Ascii List ZArith QArith Bool Lia.
From Stdlib Require Import DecimalString.
Import ListNotations.

Local Open Scope string_scope.
Local Open Scope Z_scope.

Set Warnings "-register-all".

(* ================================================================== *)
(** ** Python values *)

(** The slice of Python's value universe that a provider response can be
    built from.  Strings are byte strings: a non-ASCII character is its
    UTF-8 bytes. *)
Inductive pyval : Type :=
| PyNone
| PyStr (s : string)
| PyInt (n : Z)
| PyList (items : list pyval)
| PyDict (entries : list (string * pyval))
| PyObj (cls : string) (attrs : list (string * pyval)).

(** A dict literal, in insertion order. *)
Definition pydict : Type := list (string * pyval).

Fixpoint lookup {A : Type} (k : string) (d : list (string * A)) : option A :=
  match d with
  | [] => None
  | (k', v) :: d' => if String.eqb k k' then Some v else lookup k d'
  end.

Definition keys {A : Type} (d : list (string * A)) : list string := map fst d.

(** [type(v).__name__] *)
Definition type_name (v : pyval) : string :=
  match v with
  | PyNone => "NoneType"
  | PyStr _ => "str"
  | PyInt _ => "int"
  | PyList _ => "list"
  | PyDict _ => "dict"
  | PyObj cls _ => cls
  end.

(** Truthiness of an [Optional[str]]: [None] and [""] are falsy, every
    other string is truthy. *)
Definition truth (question : option string) : bool :=
  match question with
  | None => false
  | Some s => negb (String.eqb s "")
  end.

(** What an f-string replacement field [{question}] renders. *)
Definition format (question : option string) : string :=
  match question with
  | None => "None"
  | Some s => s
  end.

(** An [Optional[str]] stored into a dict. *)
Definition to_pyval (question : option string) : pyval :=
  match question with
  | None => PyNone
  | Some s => PyStr s
  end.

Definition string_of_nat (n : nat) : string :=
  NilZero.string_of_uint (Nat.to_uint n).

Definition string_of_Z (z : Z) : string :=
  NilZero.string_of_int (Z.to_int z).

(* ================================================================== *)
(** ** Exceptions *)

(** Exception classes.  The built-in ones the program can meet, the
    hierarchy of the [openai] package, FastAPI's [HTTPException], and two
    open families: any further class derived from [Exception] outside the
    [openai] hierarchy, and any further class derived from [BaseException]
    only (the interpreter's own signals). *)
Module Cls.

Inductive t : Type :=
| BaseException
| Exception
| KeyboardInterrupt
| SystemExit
| LookupError
| IndexError
| KeyError
| TypeError
| AttributeError
| OpenAIError
| APIError
| APIResponseValidationError
| APIStatusError
| APIConnectionError
| APITimeoutError
| BadRequestError
| AuthenticationError
| PermissionDeniedError
| NotFoundError
| ConflictError
| UnprocessableEntityError
| RateLimitError
| InternalServerError
| HTTPException
| OtherException (name : string)
| OtherBaseException (name : string).

(** The direct base class; [BaseException] is the root. *)
Definition base (c : t) : option t :=
  match c with
  | BaseException => None
  | Exception => Some BaseException
  | KeyboardInterrupt => Some BaseException
  | SystemExit => Some BaseException
  | LookupError => Some Exception
  | IndexError => Some LookupError
  | KeyError => Some LookupError
  | TypeError => Some Exception
  | AttributeError => Some Exception
  | OpenAIError => Some Exception
  | APIError => Some OpenAIError
  | APIResponseValidationError => Some APIError
  | APIStatusError => Some APIError
  | APIConnectionError => Some APIError
  | APITimeoutError => Some APIConnectionError
  | BadRequestError => Some APIStatusError
  | AuthenticationError => Some APIStatusError
  | PermissionDeniedError => Some APIStatusError
  | NotFoundError => Some APIStatusError
  | ConflictError => Some APIStatusError
  | UnprocessableEntityError => Some APIStatusError
  | RateLimitError => Some APIStatusError
  | InternalServerError => Some APIStatusError
  | HTTPException => Some Exception
  | OtherException _ => Some Exception
  | OtherBaseException _ => Some BaseException
  end.

Definition eq_dec (c d : t) : {c = d} + {c <> d}.
Proof. decide equality; apply string_dec. Defined.

Definition eqb (c d : t) : bool := if eq_dec c d then true else false.

(** The class and its ancestors, nearest first.  No chain of [base] is
    longer than six classes. *)
Fixpoint mro_upto (fuel : nat) (c : t) : list t :=
  match fuel with
  | O => [c]
  | S fuel' =>
      match base c with
      | None => [c]
      | Some b => c :: mro_upto fuel' b
      end
  end.

Definition mro (c : t) : list t := mro_upto 6 c.

Definition issubclass (c d : t) : bool := existsb (eqb d) (mro c).

End Cls.

(** A raised exception object.  [HTTPException] keeps the two fields the
    framework reads; any other exception is its class and what [str(e)]
    returns. *)
Inductive exn : Type :=
| HTTPException (status_code : Z) (detail : string)
| Exc (cls : Cls.t) (msg : string).

Definition class_of (e : exn) : Cls.t :=
  match e with
  | HTTPException _ _ => Cls.HTTPException
  | Exc c _ => c
  end.

(** [str(e)].  Starlette prints an [HTTPException] as
    [f"{status_code}: {detail}"]. *)
Definition str (e : exn) : string :=
  match e with
  | HTTPException sc d => string_of_Z sc ++ ": " ++ d
  | Exc _ m => m
  end.

Definition isinstance (e : exn) (c : Cls.t) : bool :=
  Cls.issubclass (class_of e) c.

(** The outcome of running a piece of code. *)
Inductive result (A : Type) : Type :=
| Ok (a : A)
| Raise (e : exn).
Arguments Ok {A} a.
Arguments Raise {A} e.

(* ================================================================== *)
(** ** Attribute and index access *)

(** [v.name] for the attribute names the program reads ([choices],
    [message], [content]): only an object carries them; the built-in types
    have no attribute of these names. *)
Definition getattr (v : pyval) (name : string) : result pyval :=
  let missing :=
    Raise (Exc Cls.AttributeError
             ("'" ++ type_name v ++ "' object has no attribute '" ++ name ++ "'")) in
  match v with
  | PyObj _ attrs =>
      match lookup name attrs with
      | Some a => Ok a
      | None => missing
      end
  | _ => missing
  end.

(** [v[i]] for a non-negative literal index [i]. *)
Definition getitem (v : pyval) (i : nat) : result pyval :=
  match v with
  | PyList items =>
      match nth_error items i with
      | Some a => Ok a
      | None => Raise (Exc Cls.IndexError "list index out of range")
      end
  | PyStr s =>
      match String.get i s with
      | Some c => Ok (PyStr (String c EmptyString))
      | None => Raise (Exc Cls.IndexError "string index out of range")
      end
  | PyDict _ => Raise (Exc Cls.KeyError (string_of_nat i))
  | _ => Raise (Exc Cls.TypeError
                  ("'" ++ type_name v ++ "' object is not subscriptable"))
  end.

Definition and_then {A B : Type} (r : result A) (k : A -> result B)
  : result B :=
  match r with
  | Ok a => k a
  | Raise e => Raise e
  end.

(** The expression [response.choices[0].message.content] of line 122,
    evaluated left to right; the first access that fails raises. *)
Definition choices_0_message_content (response : pyval) : result pyval :=
  and_then (getattr response "choices") (fun choices =>
  and_then (getitem choices 0) (fun choice =>
  and_then (getattr choice "message") (fun message =>
  getattr message "content"))).

(* ================================================================== *)
(** ** The outside world *)

(** One entry of the [messages] argument. *)
Record chat_message : Type := { role : string; content : string }.

(** The keyword arguments of [chat.completions.create]. *)
Record completion_request : Type := {
  model : string;
  messages : list chat_message;
  max_tokens : Z;
  temperature : Q
}.

Inductive level : Type := INFO | ERROR.

Inductive event : Type :=
| Log (lvl : level) (msg : string)
| Create (req : completion_request).

(** The completion requests of a trace, in order. *)
Fixpoint provider_calls (tr : list event) : list completion_request :=
  match tr with
  | [] => []
  | Create req :: tr' => req :: provider_calls tr'
  | Log _ _ :: tr' => provider_calls tr'
  end.


(* ================================================================== *)
(** ** The program *)

Section Program.

(** The provider: its private state and what one completion call does
    to it.  Nothing is assumed of either. *)
Variable Sigma : Type.
Variable create : completion_request -> Sigma -> result pyval * Sigma.

Record world : Type := { client : Sigma; trace : list event }.

(** Computations: they read and extend the world, and return or raise. *)
Definition M (A : Type) : Type := world -> result A * world.

Definition ret {A : Type} (a : A) : M A := fun w => (Ok a, w).

Definition raise {A : Type} (e : exn) : M A := fun w => (Raise e, w).

Definition bind {A B : Type} (m : M A) (k : A -> M B) : M B :=
  fun w =>
    match m w with
    | (Ok a, w') => k a w'
    | (Raise e, w') => (Raise e, w')
    end.

Definition lift {A : Type} (r : result A) : M A := fun w => (r, w).

Notation "x <- m ;; k" := (bind m (fun x => k))
  (at level 61, m at next level, right associativity).
Notation "m ;; k" := (bind m (fun _ => k))
  (at level 61, right associativity).

Definition emit (ev : event) : M unit :=
  fun w => (Ok tt, {| client := client w; trace := trace w ++ [ev] |}).

Definition logger_info (msg : string) : M unit := emit (Log INFO msg).
Definition logger_error (msg : string) : M unit := emit (Log ERROR msg).

(** [openai_client.chat.completions.create(...)]: one call of the client.
    What the client library does inside that call is the provider's
    business, and part of [create]. *)
Definition chat_completions_create (req : completion_request) : M pyval :=
  fun w =>
    let (r, s') := create req (client w) in
    (r, {| client := s'; trace := trace w ++ [Create req] |}).

(** *** [try] / [except] *)

Definition clause (A : Type) : Type := (Cls.t * (exn -> M A))%type.

(** The first clause whose class the exception is an instance of. *)
Fixpoint find_clause {A : Type} (clauses : list (clause A)) (e : exn)
  : option (exn -> M A) :=
  match clauses with
  | [] => None
  | (c, h) :: rest =>
      if isinstance e c then Some h else find_clause rest e
  end.

(** An exception of the body goes to the first matching clause; one that
    matches none, or that a handler raises, leaves the statement. *)
Definition try_except {A : Type} (body : M A) (clauses : list (clause A))
  : M A :=
  fun w =>
    match body w with
    | (Ok a, w') => (Ok a, w')
    | (Raise e, w') =>
        match find_clause clauses e with
        | Some h => h e w'
        | None => (Raise e, w')
        end
    end.

(** *** [main.py] *)

(** [class CoffeeQuestion(BaseModel)] *)
Record CoffeeQuestion : Type := { question : option string }.

Definition nl : string := String (ascii_of_nat 10) EmptyString.

Definition DEFAULT_QUESTION : string :=
  "What are the top 5 coffee brewing methods and their characteristics?".

(** The f-string of lines 103-108, with the source's line breaks and
    indentation. *)
Definition coffee_prompt_template (question : string) : string :=
  "You are a coffee expert and barista with deep knowledge about coffee beans, brewing methods, equipment, and coffee culture. " ++ nl ++
  "        Please answer the following coffee question in a helpful, informative, and engaging way:" ++ nl ++
  "        " ++ nl ++
  "        Question: " ++ question ++ nl ++
  "        " ++ nl ++
  "        Please provide a detailed answer that would be helpful to someone interested in coffee.".

(** [@app.get("/")] *)
Definition root : M pydict :=
  logger_info "Root endpoint called" ;;
  ret [ ("message", PyStr "Welcome to Coffee AI Assistant!");
        ("description", PyStr "Use POST /ask-coffee to ask questions about coffee");
        ("example", PyStr "POST /ask-coffee with body: {'question': 'What is the best brewing method for coffee?'}") ].

Definition AUTH_DETAIL : string :=
  "OpenAI API key not configured or invalid. Please set OPENAI_API_KEY environment variable.".

Definition RATE_LIMIT_DETAIL : string :=
  "OpenAI API rate limit exceeded. Please try again later.".

(** The body of the [try] statement, lines 96-132. *)
Definition ask_coffee_question_body (question : option string) : M pydict :=
  let question :=
    if negb (truth question) then Some DEFAULT_QUESTION else question in
  logger_info ("Asking OpenAI about coffee: " ++ format question) ;;
  let coffee_prompt := coffee_prompt_template (format question) in
  response <- chat_completions_create
    {| model := "gpt-3.5-turbo";
       messages :=
         [ {| role := "system";
              content := "You are a knowledgeable coffee expert and barista." |};
           {| role := "user"; content := coffee_prompt |} ];
       max_tokens := 500;
       temperature := 0.7%Q |} ;;
  ai_response <- lift (choices_0_message_content response) ;;
  logger_info "Successfully received response from OpenAI" ;;
  ret [ ("status", PyStr "success");
        ("question", to_pyval question);
        ("ai_response", ai_response);
        ("model_used", PyStr "gpt-3.5-turbo");
        ("coffee_expert", PyStr "☕ AI Barista") ].

(** The four [except] clauses, lines 134-157, in source order. *)
Definition ask_coffee_question_clauses : list (clause pydict) :=
  [ (Cls.AuthenticationError, fun _ =>
       logger_error "OpenAI API key authentication failed" ;;
       raise (HTTPException 401 AUTH_DETAIL));
    (Cls.RateLimitError, fun _ =>
       logger_error "OpenAI API rate limit exceeded" ;;
       raise (HTTPException 429 RATE_LIMIT_DETAIL));
    (Cls.APIError, fun e =>
       logger_error ("OpenAI API error: " ++ str e) ;;
       raise (HTTPException 500 ("OpenAI API error: " ++ str e)));
    (Cls.Exception, fun e =>
       logger_error ("Unexpected error calling OpenAI: " ++ str e) ;;
       raise (HTTPException 500 ("Failed to get coffee advice: " ++ str e))) ].

Definition ask_coffee_question (question : option string) : M pydict :=
  try_except (ask_coffee_question_body question) ask_coffee_question_clauses.

(** [@app.post("/ask-coffee")] *)
Definition ask_coffee_endpoint (coffee_question : CoffeeQuestion) : M pydict :=
  logger_info "Ask coffee endpoint called" ;;
  let question :=
    if truth (question coffee_question) then question coffee_question
    else None in
  response <- ask_coffee_question question ;;
  ret response.

(** *** The framework around a handler *)

Record http_response : Type := { status : Z; body : pydict }.

(** FastAPI's default for a route declared without [status_code]: a
    handler that returns sends 200 with the returned dict as JSON; a
    raised [HTTPException] sends its [status_code] with
    [{"detail": detail}].  Any other exception leaves the handler.  The
    handler's argument is a body that has passed validation, and the
    serialisation of the returned dict is taken to succeed, as it does
    for a dict of strings: neither step is embedded. *)
Definition respond (handler : M pydict) : M http_response :=
  fun w =>
    match handler w with
    | (Ok d, w') => (Ok {| status := 200; body := d |}, w')
    | (Raise (HTTPException sc d), w') =>
        (Ok {| status := sc; body := [("detail", PyStr d)] |}, w')
    | (Raise e, w') => (Raise e, w')
    end.

Definition GET_root : M http_response := respond root.

Definition POST_ask_coffee (coffee_question : CoffeeQuestion)
  : M http_response :=
  respond (ask_coffee_endpoint coffee_question).

End Program.

Arguments client {Sigma} w.
Arguments trace {Sigma} w.
Arguments Build_world {Sigma} client trace.
Arguments ret {Sigma A} a w.
Arguments raise {Sigma A} e w.
Arguments bind {Sigma A B} m k w.
Arguments lift {Sigma A} r w.
Arguments emit {Sigma} ev w.
Arguments logger_info {Sigma} msg w.
Arguments logger_error {Sigma} msg w.
Arguments chat_completions_create {Sigma} create req w.
Arguments find_clause {Sigma A} clauses e.
Arguments try_except {Sigma A} body clauses w.
Arguments root {Sigma} w.
Arguments ask_coffee_question_body {Sigma} create question w.
Arguments ask_coffee_question_clauses {Sigma}.
Arguments ask_coffee_question {Sigma} create question w.
Arguments ask_coffee_endpoint {Sigma} create coffee_question w.
Arguments respond {Sigma} handler w.
Arguments GET_root {Sigma} w.
Arguments POST_ask_coffee {Sigma} create coffee_question w.

(* ================================================================== *)
(** ** Notions the properties are stated with *)

(** The question the service works with: the endpoint's rebinding of
    line 203 followed by the service's of lines 97-98. *)
Definition effective_question (cq : CoffeeQuestion) : string :=
  let question := if truth (question cq) then question cq else None in
  let question :=
    if negb (truth question) then Some DEFAULT_QUESTION else question in
  format question.

(** The world after further events. *)
Definition after {Sigma : Type} (w : world Sigma) (evs : list event)
  : world Sigma :=
  {| client := client w; trace := trace w ++ evs |}.

(** Python's whitespace among the ASCII characters. *)
Definition is_space (c : ascii) : bool :=
  let n := nat_of_ascii c in
  (Nat.eqb n 32 || (Nat.leb 9 n && Nat.leb n 13)
   || (Nat.leb 28 n && Nat.leb n 31))%bool.

Fixpoint all_space (s : string) : bool :=
  match s with
  | EmptyString => true
  | String c s' => (is_space c && all_space s')%bool
  end.

(** [s.isspace()]: at least one character, and whitespace only. *)
Definition isspace (s : string) : bool :=
  match s with
  | EmptyString => false
  | String _ _ => all_space s
  end.

(** *** Sample providers *)

(** A well-formed completion carrying [text]. *)
Definition completion_with (text : pyval) : pyval :=
  PyObj "ChatCompletion"
    [ ("id", PyStr "chatcmpl-1");
      ("choices",
       PyList [ PyObj "Choice"
                  [ ("index", PyInt 0);
                    ("message",
                     PyObj "ChatCompletionMessage"
                       [ ("role", PyStr "assistant"); ("content", text) ]) ] ]) ].

(** A completion whose [choices] list is empty. *)
Definition completion_without_choices : pyval :=
  PyObj "ChatCompletion" [ ("id", PyStr "chatcmpl-2"); ("choices", PyList []) ].

(** A provider that answers every request with the same outcome and counts
    its calls. *)
Definition constant_provider (r : result pyval)
  : completion_request -> nat -> result pyval * nat :=
  fun _ calls => (r, S calls).

Definition fresh_world : world nat := {| client := O; trace := [] |}.

(** The completion request the service builds for a request body. *)
Definition request_of (cq : CoffeeQuestion) : completion_request :=
  {| model := "gpt-3.5-turbo";
     messages :=
       [ {| role := "system";
            content := "You are a knowledgeable coffee expert and barista." |};
         {| role := "user";
            content := coffee_prompt_template (effective_question cq) |} ];
     max_tokens := 500;
     temperature := 0.7%Q |}.

(** The success envelope for an effective question and a generated text. *)
Definition envelope (question : string) (ai_response : pyval) : pydict :=
  [ ("status", PyStr "success");
    ("question", PyStr question);
    ("ai_response", ai_response);
    ("model_used", PyStr "gpt-3.5-turbo");
    ("coffee_expert", PyStr "☕ AI Barista") ].

(** What the [except] clauses of [ask_coffee_question] do with an
    exception of the [try] body. *)
Definition handle {Sigma : Type} (e : exn) : M Sigma pydict :=
  fun w =>
    match find_clause ask_coffee_question_clauses e with
    | Some h => h e w
    | None => (Raise e, w)
    end.

(** The classes [response.choices[0].message.content] can raise. *)
Definition access_error (e : exn) : Prop :=
  exists m,
    e = Exc Cls.AttributeError m \/ e = Exc Cls.IndexError m \/
    e = Exc Cls.KeyError m \/ e = Exc Cls.TypeError m.

(** The world in which the provider is called, and the one it leaves. *)
Definition before_call {Sigma : Type} (cq : CoffeeQuestion) (w : world Sigma)
  : world Sigma :=
  after (after w [Log INFO "Ask coffee endpoint called"])
    [Log INFO ("Asking OpenAI about coffee: " ++ effective_question cq)].

Definition after_call {Sigma : Type} (cq : CoffeeQuestion) (w : world Sigma)
  (s' : Sigma) : world Sigma :=
  {| client := s';
     trace := trace (before_call cq w) ++ [Create (request_of cq)] |}.

(** The [try] body of a request fails with [e]: the provider call raises
    it, or the call returns and reading the generated text raises it. *)
Definition fails_with {Sigma : Type}
  (create : completion_request -> Sigma -> result pyval * Sigma)
  (cq : CoffeeQuestion) (w : world Sigma) (e : exn) : Prop :=
  fst (create (request_of cq) (client w)) = Raise e \/
  exists response,
    fst (create (request_of cq) (client w)) = Ok response /\
    choices_0_message_content response = Raise e.

(* ================================================================== *)
(** ** Process start: credentials, telemetry, entry point *)

(** *** The API key, [main.py] lines 23 and 48-50 *)

(** [os.environ], a mapping from names to strings. *)
Definition environ : Type := list (string * string).

(** [os.getenv(key, default)] *)
Definition os_getenv (env : environ) (key default : string) : string :=
  match lookup key env with
  | Some v => v
  | None => default
  end.

(** [load_dotenv()] with its defaults, given the parsed [.env] file (no
    file: no entries; a key without a value parses to [None]): a name the
    environment already holds is left alone, a [None] value is skipped, any
    other entry is added. *)
Fixpoint load_dotenv (dotenv : list (string * option string)) (env : environ)
  : environ :=
  match dotenv with
  | [] => env
  | (k, v) :: rest =>
      load_dotenv rest
        match lookup k env, v with
        | None, Some v => (env ++ [(k, v)])%list
        | _, _ => env
        end
  end.

(** The [api_key] argument of [openai.OpenAI(...)]. *)
Definition openai_api_key (dotenv : list (string * option string))
  (env : environ) : string :=
  os_getenv (load_dotenv dotenv env) "OPENAI_API_KEY" "your-openai-api-key-here".

(** *** [telemetry_monocle.py] and [app.py] *)

(** The keyword arguments of [uvicorn.run]. *)
Record uvicorn_config : Type := {
  uvicorn_app : string;
  host : string;
  port : Z;
  reload : bool;
  log_level : string
}.

Section Startup.

(** The tracing library: its state and what
    [setup_monocle_telemetry(workflow_name=..., monocle_exporters_list=...)]
    does to it.  Nothing is assumed of either. *)
Variable Tel : Type.
Variable setup_monocle_telemetry :
  string -> string -> Tel -> result unit * Tel.

(** How a call of [uvicorn.run] ends, once the server it ran has
    stopped. *)
Variable uvicorn_run : uvicorn_config -> result unit.

Notation "x <- m ;; k" := (bind m (fun x => k))
  (at level 61, m at next level, right associativity).
Notation "m ;; k" := (bind m (fun _ => k))
  (at level 61, right associativity).

Definition call_setup_monocle_telemetry (workflow_name exporters : string)
  : M Tel unit :=
  fun w =>
    let (r, t') := setup_monocle_telemetry workflow_name exporters (client w) in
    (r, {| client := t'; trace := trace w |}).

(** [configure_monocle_telemetry()]; Python's [True] is [Some true], its
    [None] is [None]. *)
Definition configure_monocle_telemetry : M Tel (option bool) :=
  try_except
    (call_setup_monocle_telemetry "coffee-ai-assistant" "file" ;;
     logger_info "Monocle AI telemetry configured successfully" ;;
     ret (Some true))
    [ (Cls.Exception, fun e =>
         logger_error ("Failed to configure Monocle AI telemetry: " ++ str e) ;;
         ret None) ].

(** The process as [app.py] sees it: the tracing library and the log,
    standard output, and the servers [uvicorn.run] was asked to run. *)
Record process : Type := {
  telemetry : world Tel;
  stdout : list string;
  servers : list uvicorn_config
}.

(** The module body of [app.py], run under the module name [name]. *)
Definition app_py (name : string) (p : process) : result unit * process :=
  match configure_monocle_telemetry (telemetry p) with
  | (Raise e, t') =>
      (Raise e, {| telemetry := t'; stdout := stdout p; servers := servers p |})
  | (Ok _, t') =>
      if String.eqb name "__main__" then
        let config :=
          {| uvicorn_app := "main:app"; host := "0.0.0.0"; port := 8000;
             reload := false; log_level := "info" |} in
        (uvicorn_run config,
         {| telemetry := t';
            stdout :=
              (stdout p ++
               ["Starting FastAPI application with instrumentation..."])%list;
            servers := (servers p ++ [config])%list |})
      else
        (Ok tt,
         {| telemetry := t'; stdout := stdout p; servers := servers p |})
  end.

End Startup.

Arguments call_setup_monocle_telemetry {Tel} setup_monocle_telemetry
  workflow_name exporters w.
Arguments configure_monocle_telemetry {Tel} setup_monocle_telemetry w.
Arguments telemetry {Tel} p.
Arguments stdout {Tel} p.
Arguments servers {Tel} p.
Arguments Build_process {Tel} telemetry stdout servers.
Arguments app_py {Tel} setup_monocle_telemetry uvicorn_run name p.

(** A tracing library that answers every setup with the same outcome and
    counts its calls. *)
Definition constant_setup (r : result unit)
  : string -> string -> nat -> result unit * nat :=
  fun _ _ calls => (r, S calls).

(** A server that runs until it is stopped in good order. *)
Definition graceful_server : uvicorn_config -> result unit :=
  fun _ => Ok tt.

Definition fresh_process : process nat :=
  {| telemetry := fresh_world; stdout := []; servers := [] |}.

(* ================================================================== *)
(** ** The client behind [chat.completions.create] *)

(** How one HTTP request to the provider ends, as the SDK sees it: a
    parsed 2xx answer, another status (with its [x-should-retry] header,
    when the provider sent one, and the error's message), a connection
    that failed, or a timeout. *)
Inductive attempt : Type :=
| Responded (response : pyval)
| StatusError (status : Z) (x_should_retry : option bool) (message : string)
| ConnectionFailed
| TimedOut.

(** The SDK's [_should_retry]: the header decides when it is there,
    otherwise 408, 409, 429 and every 5xx are tried again. *)
Definition should_retry (status : Z) (x_should_retry : option bool) : bool :=
  match x_should_retry with
  | Some b => b
  | None =>
      (status =? 408) || (status =? 409) || (status =? 429) || (500 <=? status)
  end.

(** The SDK's [_make_status_error]. *)
Definition make_status_error (status : Z) (message : string) : exn :=
  Exc (if status =? 400 then Cls.BadRequestError
       else if status =? 401 then Cls.AuthenticationError
       else if status =? 403 then Cls.PermissionDeniedError
       else if status =? 404 then Cls.NotFoundError
       else if status =? 409 then Cls.ConflictError
       else if status =? 422 then Cls.UnprocessableEntityError
       else if status =? 429 then Cls.RateLimitError
       else if 500 <=? status then Cls.InternalServerError
       else Cls.APIStatusError)
      message.

(** An attempt after which the SDK sends the request again, while it has
    retries left. *)
Definition retried (a : attempt) : bool :=
  match a with
  | Responded _ => false
  | StatusError status x_should_retry _ => should_retry status x_should_retry
  | ConnectionFailed => true
  | TimedOut => true
  end.

(** The SDK's [DEFAULT_MAX_RETRIES]. *)
Definition DEFAULT_MAX_RETRIES : nat := 2.

(** The provider as the client reaches it: whatever is behind the network,
    and the requests sent to it so far. *)
Record wire (Net : Type) : Type := {
  net : Net;
  sent : list completion_request
}.
Arguments net {Net} w.
Arguments sent {Net} w.
Arguments Build_wire {Net} net sent.

Section Client.

(** The provider: its state and its answer to one HTTP request.  Nothing
    is assumed of either. *)
Variable Net : Type.
Variable send : completion_request -> Net -> attempt * Net.

(** One HTTP request. *)
Definition post (req : completion_request) (c : wire Net)
  : attempt * wire Net :=
  let (a, n') := send req (net c) in
  (a, {| net := n'; sent := (sent c ++ [req])%list |}).

(** The SDK's request loop with [remaining] retries left. *)
Fixpoint request (remaining : nat) (req : completion_request) (c : wire Net)
  : result pyval * wire Net :=
  let (a, c') := post req c in
  match a with
  | Responded response => (Ok response, c')
  | StatusError status x_should_retry message =>
      match remaining with
      | S k =>
          if should_retry status x_should_retry then request k req c'
          else (Raise (make_status_error status message), c')
      | O => (Raise (make_status_error status message), c')
      end
  | ConnectionFailed =>
      match remaining with
      | S k => request k req c'
      | O => (Raise (Exc Cls.APIConnectionError "Connection error."), c')
      end
  | TimedOut =>
      match remaining with
      | S k => request k req c'
      | O => (Raise (Exc Cls.APITimeoutError "Request timed out."), c')
      end
  end.

(** [chat.completions.create] of the client of lines 48-50:
    [openai.OpenAI(api_key=...)] passes no [max_retries], so the client
    keeps the SDK's default. *)
Definition openai_client_create
  : completion_request -> wire Net -> result pyval * wire Net :=
  request DEFAULT_MAX_RETRIES.

End Client.

Arguments post {Net} send req c.
Arguments request {Net} send remaining req c.
Arguments openai_client_create {Net} send.

(** A provider that answers every request with 429 and counts the requests
    it receives, and one that answers every request with the same
    completion. *)
Definition rate_limiting_provider : completion_request -> nat -> attempt * nat :=
  fun _ received =>
    (StatusError 429 None "Rate limit reached for requests", S received).

Definition answering_provider (response : pyval)
  : completion_request -> nat -> attempt * nat :=
  fun _ received => (Responded response, S received).

Definition fresh_wire_world : world (wire nat) :=
  {| client := {| net := O; sent := [] |}; trace := [] |}.

(* ================================================================== *)
(** ** Traces *)

Lemma provider_calls_app (tr1 tr2 : list event) :
  provider_calls (tr1 ++ tr2) = (provider_calls tr1 ++ provider_calls tr2)%list.
Proof.
  induction tr1 as [| ev tr1 IH]; simpl.
  - reflexivity.
  - destruct ev; simpl; rewrite IH; reflexivity.
Qed.

Lemma provider_calls_log (tr : list event) (l : level) (m : string) :
  provider_calls (tr ++ [Log l m]) = provider_calls tr.
Proof. rewrite provider_calls_app. simpl. apply app_nil_r. Qed.

Lemma provider_calls_create (tr : list event) (req : completion_request) :
  provider_calls (tr ++ [Create req]) = (provider_calls tr ++ [req])%list.
Proof. rewrite provider_calls_app. reflexivity. Qed.

(* ================================================================== *)
(** ** The class hierarchy *)

Lemma mro_ends_at_root (c : Cls.t) :
  Cls.issubclass c Cls.BaseException = true.
Proof. destruct c; reflexivity. Qed.

Lemma AuthenticationError_is_APIError (e : exn) :
  isinstance e Cls.AuthenticationError = true ->
  isinstance e Cls.APIError = true.
Proof. destruct e as [sc d | c m]; [| destruct c]; cbv; congruence. Qed.

Lemma RateLimitError_is_APIError (e : exn) :
  isinstance e Cls.RateLimitError = true ->
  isinstance e Cls.APIError = true.
Proof. destruct e as [sc d | c m]; [| destruct c]; cbv; congruence. Qed.

Lemma AuthenticationError_not_RateLimitError (e : exn) :
  isinstance e Cls.AuthenticationError = true ->
  isinstance e Cls.RateLimitError = false.
Proof. destruct e as [sc d | c m]; [| destruct c]; cbv; congruence. Qed.

Lemma APIError_is_Exception (e : exn) :
  isinstance e Cls.APIError = true ->
  isinstance e Cls.Exception = true.
Proof. destruct e as [sc d | c m]; [| destruct c]; cbv; congruence. Qed.

(* ================================================================== *)
(** ** Failures of the extraction *)

Lemma getattr_raises (v : pyval) (name : string) (e : exn) :
  getattr v name = Raise e -> access_error e.
Proof.
  unfold getattr. intros H.
  destruct v as [| s | n | items | entries | cls attrs];
    try (injection H as <-; eexists; left; reflexivity).
  destruct (lookup name attrs); [discriminate |].
  injection H as <-. eexists. left. reflexivity.
Qed.

Lemma getitem_raises (v : pyval) (i : nat) (e : exn) :
  getitem v i = Raise e -> access_error e.
Proof.
  unfold getitem. intros H.
  destruct v as [| s | n | items | entries | cls attrs].
  - injection H as <-. eexists. do 3 right. reflexivity.
  - destruct (String.get i s); [discriminate |].
    injection H as <-. eexists. right. left. reflexivity.
  - injection H as <-. eexists. do 3 right. reflexivity.
  - destruct (nth_error items i); [discriminate |].
    injection H as <-. eexists. right. left. reflexivity.
  - injection H as <-. eexists. right. right. left. reflexivity.
  - injection H as <-. eexists. do 3 right. reflexivity.
Qed.

Lemma choices_0_message_content_raises (response : pyval) (e : exn) :
  choices_0_message_content response = Raise e -> access_error e.
Proof.
  unfold choices_0_message_content, and_then. intros H.
  destruct (getattr response "choices") as [choices |] eqn:E1;
    [| injection H as <-; exact (getattr_raises _ _ _ E1)].
  destruct (getitem choices 0) as [choice |] eqn:E2;
    [| injection H as <-; exact (getitem_raises _ _ _ E2)].
  destruct (getattr choice "message") as [message |] eqn:E3;
    [| injection H as <-; exact (getattr_raises _ _ _ E3)].
  exact (getattr_raises _ _ _ H).
Qed.

Lemma access_error_classes (e : exn) :
  access_error e ->
  isinstance e Cls.APIError = false /\ isinstance e Cls.Exception = true.
Proof.
  intros [m [-> | [-> | [-> | ->]]]]; split; reflexivity.
Qed.

(* ================================================================== *)
(** ** The [except] clauses *)

Section Handlers.

Context {Sigma : Type}.
Implicit Types (e : exn) (w : world Sigma).

Lemma handle_AuthenticationError e w :
  isinstance e Cls.AuthenticationError = true ->
  handle e w =
  (Raise (HTTPException 401 AUTH_DETAIL),
   after w [Log ERROR "OpenAI API key authentication failed"]).
Proof.
  intros H. unfold handle. simpl. rewrite H. reflexivity.
Qed.

Lemma handle_RateLimitError e w :
  isinstance e Cls.RateLimitError = true ->
  handle e w =
  (Raise (HTTPException 429 RATE_LIMIT_DETAIL),
   after w [Log ERROR "OpenAI API rate limit exceeded"]).
Proof.
  intros H. unfold handle. simpl.
  destruct (isinstance e Cls.AuthenticationError) eqn:Ha.
  - apply AuthenticationError_not_RateLimitError in Ha. congruence.
  - rewrite H. reflexivity.
Qed.

Lemma handle_APIError e w :
  isinstance e Cls.AuthenticationError = false ->
  isinstance e Cls.RateLimitError = false ->
  isinstance e Cls.APIError = true ->
  handle e w =
  (Raise (HTTPException 500 ("OpenAI API error: " ++ str e)),
   after w [Log ERROR ("OpenAI API error: " ++ str e)]).
Proof.
  intros Ha Hr H. unfold handle. simpl. rewrite Ha, Hr, H. reflexivity.
Qed.

Lemma handle_Exception e w :
  isinstance e Cls.APIError = false ->
  isinstance e Cls.Exception = true ->
  handle e w =
  (Raise (HTTPException 500 ("Failed to get coffee advice: " ++ str e)),
   after w [Log ERROR ("Unexpected error calling OpenAI: " ++ str e)]).
Proof.
  intros Hn H. unfold handle. simpl.
  destruct (isinstance e Cls.AuthenticationError) eqn:Ha;
    [apply AuthenticationError_is_APIError in Ha; congruence |].
  destruct (isinstance e Cls.RateLimitError) eqn:Hr;
    [apply RateLimitError_is_APIError in Hr; congruence |].
  rewrite Hn, H. reflexivity.
Qed.

(** An exception outside [Exception] matches no clause. *)
Lemma handle_uncaught e w :
  isinstance e Cls.Exception = false ->
  handle e w = (Raise e, w).
Proof.
  intros H. unfold handle. simpl.
  destruct (isinstance e Cls.AuthenticationError) eqn:Ha;
    [apply AuthenticationError_is_APIError, APIError_is_Exception in Ha;
     congruence |].
  destruct (isinstance e Cls.RateLimitError) eqn:Hr;
    [apply RateLimitError_is_APIError, APIError_is_Exception in Hr;
     congruence |].
  destruct (isinstance e Cls.APIError) eqn:Hp;
    [apply APIError_is_Exception in Hp; congruence |].
  rewrite H. reflexivity.
Qed.

(** Every way [handle] can end: one of the four clauses, or none. *)
Lemma handle_cases e w :
  (isinstance e Cls.AuthenticationError = true /\
   fst (handle e w) = Raise (HTTPException 401 AUTH_DETAIL)) \/
  (isinstance e Cls.RateLimitError = true /\
   fst (handle e w) = Raise (HTTPException 429 RATE_LIMIT_DETAIL)) \/
  (isinstance e Cls.APIError = true /\
   fst (handle e w) =
   Raise (HTTPException 500 ("OpenAI API error: " ++ str e))) \/
  (isinstance e Cls.APIError = false /\ isinstance e Cls.Exception = true /\
   fst (handle e w) =
   Raise (HTTPException 500 ("Failed to get coffee advice: " ++ str e))) \/
  (isinstance e Cls.Exception = false /\ fst (handle e w) = Raise e).
Proof.
  destruct (isinstance e Cls.AuthenticationError) eqn:Ha.
  { left. split; [reflexivity |].
    rewrite handle_AuthenticationError by assumption. reflexivity. }
  destruct (isinstance e Cls.RateLimitError) eqn:Hr.
  { right; left. split; [reflexivity |].
    rewrite handle_RateLimitError by assumption. reflexivity. }
  destruct (isinstance e Cls.APIError) eqn:Hp.
  { right; right; left. split; [reflexivity |].
    rewrite handle_APIError by assumption. reflexivity. }
  destruct (isinstance e Cls.Exception) eqn:Hx.
  { right; right; right; left. split; [reflexivity |]. split; [reflexivity |].
    rewrite handle_Exception by assumption. reflexivity. }
  do 4 right. split; [reflexivity |].
  rewrite handle_uncaught by assumption. reflexivity.
Qed.

(** The handlers never touch the provider. *)
Lemma handle_world e w :
  client (snd (handle e w)) = client w /\
  provider_calls (trace (snd (handle e w))) = provider_calls (trace w).
Proof.
  unfold handle. simpl.
  destruct (isinstance e Cls.AuthenticationError);
    [simpl; split; [reflexivity | apply provider_calls_log] |].
  destruct (isinstance e Cls.RateLimitError);
    [simpl; split; [reflexivity | apply provider_calls_log] |].
  destruct (isinstance e Cls.APIError);
    [simpl; split; [reflexivity | apply provider_calls_log] |].
  destruct (isinstance e Cls.Exception);
    [simpl; split; [reflexivity | apply provider_calls_log] |].
  simpl. split; reflexivity.
Qed.

End Handlers.

(* ================================================================== *)
(** ** One run of the service *)

Section Service.

Context {Sigma : Type}.
Variable create : completion_request -> Sigma -> result pyval * Sigma.
Implicit Types (cq : CoffeeQuestion) (w : world Sigma) (e : exn).

Lemma bind_ret_r {A : Type} (m : M Sigma A) w :
  bind m (fun a => ret a) w = m w.
Proof. unfold bind, ret. destruct (m w) as [[a | e] w']; reflexivity. Qed.

(** The whole of [ask_coffee_endpoint], by the provider's outcome. *)
Lemma ask_coffee_endpoint_run cq w :
  ask_coffee_endpoint create cq w =
  match create (request_of cq) (client w) with
  | (Ok response, s') =>
      match choices_0_message_content response with
      | Ok ai_response =>
          (Ok (envelope (effective_question cq) ai_response),
           after (after_call cq w s')
             [Log INFO "Successfully received response from OpenAI"])
      | Raise e => handle e (after_call cq w s')
      end
  | (Raise e, s') => handle e (after_call cq w s')
  end.
Proof.
  unfold ask_coffee_endpoint.
  unfold bind at 1. unfold logger_info at 1, emit at 1.
  rewrite bind_ret_r.
  unfold ask_coffee_question, try_except, ask_coffee_question_body.
  unfold request_of, after_call, before_call, effective_question, handle.
  destruct cq as [[[| a s] |]]; cbn [question truth String.eqb Ascii.eqb negb format];
    unfold bind, logger_info, emit, chat_completions_create, lift, ret, after;
    cbn [client trace];
    match goal with
    | |- context [create ?r ?s] => destruct (create r s) as [[response | e] s']
    end;
    try reflexivity;
    destruct (choices_0_message_content response) as [ai | e];
    reflexivity.
Qed.

(** Either the envelope is returned, or the body failed and the clauses
    decide. *)
Lemma ask_coffee_endpoint_outcome cq w :
  let r := fst (ask_coffee_endpoint create cq w) in
  let s' := snd (create (request_of cq) (client w)) in
  (exists response ai_response,
      fst (create (request_of cq) (client w)) = Ok response /\
      choices_0_message_content response = Ok ai_response /\
      r = Ok (envelope (effective_question cq) ai_response)) \/
  (exists e,
      fails_with create cq w e /\ r = fst (handle e (after_call cq w s'))).
Proof.
  cbv zeta. rewrite ask_coffee_endpoint_run. unfold fails_with.
  destruct (create (request_of cq) (client w)) as [[response | e] s'] eqn:Ec;
    cbn [fst snd].
  - destruct (choices_0_message_content response) as [ai | e] eqn:Ex.
    + left. exists response, ai. repeat split; assumption || reflexivity.
    + right. exists e. split; [| reflexivity].
      right. exists response. split; [reflexivity | assumption].
  - right. exists e. split; [left |]; reflexivity.
Qed.

(** One call reaches the provider, whatever comes back. *)
Lemma ask_coffee_endpoint_calls cq w :
  let w' := snd (ask_coffee_endpoint create cq w) in
  provider_calls (trace w') = (provider_calls (trace w) ++ [request_of cq])%list /\
  client w' = snd (create (request_of cq) (client w)).
Proof.
  assert (Hc : forall s',
    provider_calls (trace (after_call cq w s')) =
    (provider_calls (trace w) ++ [request_of cq])%list).
  { intros s'. unfold after_call, before_call, after. cbn [trace client].
    rewrite provider_calls_create, !provider_calls_log. reflexivity. }
  cbv zeta. rewrite ask_coffee_endpoint_run.
  destruct (create (request_of cq) (client w)) as [[response | e] s'];
    cbn [snd].
  - destruct (choices_0_message_content response) as [ai | e].
    + cbn [snd]. unfold after at 1. cbn [trace client].
      rewrite provider_calls_log. split; [apply Hc | reflexivity].
    + destruct (handle_world e (after_call cq w s')) as [H1 H2].
      rewrite H1, H2. split; [apply Hc | reflexivity].
  - destruct (handle_world e (after_call cq w s')) as [H1 H2].
    rewrite H1, H2. split; [apply Hc | reflexivity].
Qed.

(** An [HTTPException] that leaves the endpoint has one of three status
    codes. *)
Lemma raised_status_codes cq w (sc : Z) (d : string) :
  fst (ask_coffee_endpoint create cq w) = Raise (HTTPException sc d) ->
  sc = 401 \/ sc = 429 \/ sc = 500.
Proof.
  intros H.
  destruct (ask_coffee_endpoint_outcome cq w) as
    [(response & ai & _ & _ & Hr) | (e & _ & Hr)]; cbv zeta in Hr;
    rewrite Hr in H; [discriminate |].
  destruct (handle_cases e
              (after_call cq w (snd (create (request_of cq) (client w)))))
    as [[_ Hh] | [[_ Hh] | [[_ Hh] | [(_ & _ & Hh) | [Hn Hh]]]]];
    rewrite Hh in H.
  - injection H as <- _. left; reflexivity.
  - injection H as <- _. right; left; reflexivity.
  - injection H as <- _. right; right; reflexivity.
  - injection H as <- _. right; right; reflexivity.
  - injection H as ->. discriminate Hn.
Qed.

(** The interpreter's own signals are not the service's to handle: an
    exception outside [Exception] leaves the endpoint as it is. *)
Lemma non_Exception_propagates cq w e :
  fst (create (request_of cq) (client w)) = Raise e ->
  isinstance e Cls.Exception = false ->
  fst (ask_coffee_endpoint create cq w) = Raise e.
Proof.
  intros Hc Hn. rewrite ask_coffee_endpoint_run.
  destruct (create (request_of cq) (client w)) as [[response | e'] s'];
    cbn [fst] in Hc; [discriminate |].
  injection Hc as ->. rewrite handle_uncaught by assumption. reflexivity.
Qed.

(** A raised [HTTPException] reaches the caller as a response with its
    status code and its detail. *)
Lemma POST_ask_coffee_raised cq w (sc : Z) (d : string) :
  fst (ask_coffee_endpoint create cq w) = Raise (HTTPException sc d) ->
  fst (POST_ask_coffee create cq w) =
  Ok {| status := sc; body := [("detail", PyStr d)] |}.
Proof.
  intros H. unfold POST_ask_coffee, respond.
  destruct (ask_coffee_endpoint create cq w) as [[env | e] w'];
    cbn [fst] in H; [discriminate |].
  injection H as ->. reflexivity.
Qed.

(** What is returned is the envelope of the effective question. *)
Lemma returned_question cq w (env : pydict) :
  fst (ask_coffee_endpoint create cq w) = Ok env ->
  lookup "question" env = Some (PyStr (effective_question cq)).
Proof.
  intros Henv.
  destruct (ask_coffee_endpoint_outcome cq w) as
    [(response & ai & _ & _ & Hr) | (e & _ & Hr)]; cbv zeta in Hr;
    rewrite Hr in Henv.
  - injection Henv as <-. reflexivity.
  - exfalso.
    destruct (handle_cases e
                (after_call cq w (snd (create (request_of cq) (client w)))))
      as [[_ Hh] | [[_ Hh] | [[_ Hh] | [(_ & _ & Hh) | [Hn Hh]]]]];
      rewrite Hh in Henv; discriminate.
Qed.

End Service.

Lemma effective_question_nonempty (cq : CoffeeQuestion) (q : string) :
  question cq = Some q -> q <> "" -> effective_question cq = q.
Proof.
  intros Hq Hne. unfold effective_question. rewrite Hq.
  destruct q as [| a q']; [contradiction | reflexivity].
Qed.

(* ================================================================== *)
(** ** The endpoint contract *)

Section Contract.

Context {Sigma : Type}.
Variable create : completion_request -> Sigma -> result pyval * Sigma.
Implicit Types (cq : CoffeeQuestion) (w : world Sigma) (e : exn).

(** C1. When the provider call of a POST /ask-coffee request fails with an
    exception [e] (an instance of Python's [Exception]), the endpoint
    raises an [HTTPException] classified as follows: an authentication
    failure gives status 401; a rate-limit failure gives 429; any other
    [APIError] gives 500 with detail ["OpenAI API error: " ++ str e]; any
    other exception gives 500 with detail
    ["Failed to get coffee advice: " ++ str e].  The caller receives the
    response with that status and detail, and no [HTTPException] of any
    request carries a status code other than 401, 429 or 500. *)
Theorem provider_failure_mapping cq w e :
  fst (create (request_of cq) (client w)) = Raise e ->
  isinstance e Cls.Exception = true ->
  let r := fst (ask_coffee_endpoint create cq w) in
  (isinstance e Cls.AuthenticationError = true ->
   exists d, r = Raise (HTTPException 401 d)) /\
  (isinstance e Cls.RateLimitError = true ->
   exists d, r = Raise (HTTPException 429 d)) /\
  (isinstance e Cls.APIError = true ->
   isinstance e Cls.AuthenticationError = false ->
   isinstance e Cls.RateLimitError = false ->
   r = Raise (HTTPException 500 ("OpenAI API error: " ++ str e))) /\
  (isinstance e Cls.APIError = false ->
   r = Raise (HTTPException 500 ("Failed to get coffee advice: " ++ str e))) /\
  (exists sc d,
      r = Raise (HTTPException sc d) /\
      fst (POST_ask_coffee create cq w) =
      Ok {| status := sc; body := [("detail", PyStr d)] |}) /\
  (forall sc d, r = Raise (HTTPException sc d) ->
                sc = 401 \/ sc = 429 \/ sc = 500).
Proof.
  intros Hc Hx r.
  assert (Hr : r = fst (handle e (after_call cq w
                                    (snd (create (request_of cq) (client w)))))).
  { subst r. rewrite ask_coffee_endpoint_run.
    destruct (create (request_of cq) (client w)) as [[response | e'] s'];
      cbn [fst snd] in *; [discriminate |].
    injection Hc as ->. reflexivity. }
  repeat split.
  - intros Ha. eexists. rewrite Hr, handle_AuthenticationError by assumption.
    reflexivity.
  - intros Hl. eexists. rewrite Hr, handle_RateLimitError by assumption.
    reflexivity.
  - intros Hp Ha Hl. rewrite Hr, handle_APIError by assumption. reflexivity.
  - intros Hn. rewrite Hr, handle_Exception by assumption. reflexivity.
  - assert (Hs : exists sc d, r = Raise (HTTPException sc d)).
    { rewrite Hr.
      destruct (handle_cases e
                  (after_call cq w (snd (create (request_of cq) (client w)))))
        as [[_ Hh] | [[_ Hh] | [[_ Hh] | [(_ & _ & Hh) | [Hn _]]]]];
        try (rewrite Hh; eexists; eexists; reflexivity).
      congruence. }
    destruct Hs as (sc & d & Hs). exists sc, d.
    split; [exact Hs | apply POST_ask_coffee_raised; exact Hs].
  - intros sc d. subst r. apply raised_status_codes.
Qed.

(** C2. When the [question] field of the request is absent or the empty
    string, the question the service works with is the fixed default:
    the one completion request carries the prompt built from it, and a
    success envelope returns it in its [question] field. *)
Theorem absent_or_empty_question_uses_default cq w :
  question cq = None \/ question cq = Some "" ->
  let run := ask_coffee_endpoint create cq w in
  effective_question cq =
    "What are the top 5 coffee brewing methods and their characteristics?" /\
  (exists req,
      provider_calls (trace (snd run)) =
        (provider_calls (trace w) ++ [req])%list /\
      messages req =
        [ {| role := "system";
             content := "You are a knowledgeable coffee expert and barista." |};
          {| role := "user";
             content := coffee_prompt_template DEFAULT_QUESTION |} ]) /\
  (forall env, fst run = Ok env ->
               lookup "question" env = Some (PyStr DEFAULT_QUESTION)).
Proof.
  intros Hq run.
  assert (He : effective_question cq = DEFAULT_QUESTION).
  { unfold effective_question. destruct Hq as [-> | ->]; reflexivity. }
  split; [exact He |]. split.
  - exists (request_of cq). split.
    + apply ask_coffee_endpoint_calls.
    + unfold request_of. cbn [messages]. rewrite He. reflexivity.
  - intros env Henv. rewrite <- He. exact (returned_question create cq w env Henv).
Qed.

(** C3. When the [question] field is a non-empty string [q], the
    [question] field of a success envelope is [q] itself, byte for
    byte. *)
Theorem nonempty_question_returned_verbatim cq (q : string) w :
  question cq = Some q ->
  q <> "" ->
  effective_question cq = q /\
  (forall env, fst (ask_coffee_endpoint create cq w) = Ok env ->
               lookup "question" env = Some (PyStr q)).
Proof.
  intros Hq Hne.
  pose proof (effective_question_nonempty cq q Hq Hne) as He.
  split; [exact He |].
  intros env Henv. rewrite <- He.
  exact (returned_question create cq w env Henv).
Qed.

(** C4. When the provider call returns a response whose
    [choices[0].message.content] is [ai_response] (a generated text
    [PyStr T] in particular), the endpoint returns exactly the five-field
    envelope: status "success", the effective question, [ai_response]
    unchanged, model "gpt-3.5-turbo" and the persona label. *)
Theorem success_envelope_fields cq w (response ai_response : pyval) :
  fst (create (request_of cq) (client w)) = Ok response ->
  choices_0_message_content response = Ok ai_response ->
  fst (ask_coffee_endpoint create cq w) =
  Ok [ ("status", PyStr "success");
       ("question", PyStr (effective_question cq));
       ("ai_response", ai_response);
       ("model_used", PyStr "gpt-3.5-turbo");
       ("coffee_expert", PyStr "☕ AI Barista") ].
Proof.
  intros Hc Hx. rewrite ask_coffee_endpoint_run.
  destruct (create (request_of cq) (client w)) as [[response' | e] s'];
    cbn [fst] in Hc; [| discriminate].
  injection Hc as ->. rewrite Hx. reflexivity.
Qed.

(** C5. Whatever the state of the provider and of the world, GET / answers
    200 with the fixed object of exactly the three keys [message],
    [description] and [example]; it writes one log line, leaves the
    provider's state alone and adds no completion request to the trace. *)
Theorem root_is_static_and_calls_no_provider w :
  GET_root w =
  (Ok {| status := 200;
         body :=
           [ ("message", PyStr "Welcome to Coffee AI Assistant!");
             ("description",
              PyStr "Use POST /ask-coffee to ask questions about coffee");
             ("example",
              PyStr "POST /ask-coffee with body: {'question': 'What is the best brewing method for coffee?'}") ] |},
   after w [Log INFO "Root endpoint called"]) /\
  (forall r, fst (GET_root w) = Ok r ->
             status r = 200 /\
             keys (body r) = ["message"; "description"; "example"]) /\
  client (snd (GET_root w)) = client w /\
  provider_calls (trace (snd (GET_root w))) = provider_calls (trace w).
Proof.
  assert (H : GET_root w =
    (Ok {| status := 200;
           body :=
             [ ("message", PyStr "Welcome to Coffee AI Assistant!");
               ("description",
                PyStr "Use POST /ask-coffee to ask questions about coffee");
               ("example",
                PyStr "POST /ask-coffee with body: {'question': 'What is the best brewing method for coffee?'}") ] |},
     after w [Log INFO "Root endpoint called"])) by reflexivity.
  split; [exact H |]. rewrite H. cbn [fst snd].
  split; [| split].
  - intros r Hr. injection Hr as <-. split; reflexivity.
  - reflexivity.
  - unfold after. cbn [trace]. apply provider_calls_log.
Qed.

(** Over any client: every request makes the service call [create]
    exactly once, with the system instruction, the model "gpt-3.5-turbo",
    [max_tokens] 500 and [temperature] 0.7, whether the call returns or
    raises, and asking the same question again calls it again. *)
Lemma one_create_call_per_request cq w :
  let req :=
    {| model := "gpt-3.5-turbo";
       messages :=
         [ {| role := "system";
              content := "You are a knowledgeable coffee expert and barista." |};
           {| role := "user";
              content := coffee_prompt_template (effective_question cq) |} ];
       max_tokens := 500;
       temperature := 0.7%Q |} in
  let w' := snd (ask_coffee_endpoint create cq w) in
  let w'' := snd (ask_coffee_endpoint create cq w') in
  provider_calls (trace w') = (provider_calls (trace w) ++ [req])%list /\
  client w' = snd (create req (client w)) /\
  provider_calls (trace w'') = (provider_calls (trace w) ++ [req; req])%list /\
  client w'' = snd (create req (snd (create req (client w)))).
Proof.
  intros req w' w''.
  destruct (ask_coffee_endpoint_calls create cq w) as [H1 H2].
  destruct (ask_coffee_endpoint_calls create cq w') as [H3 H4].
  fold w' in H1, H2. fold w'' in H3, H4.
  change (request_of cq) with req in *.
  repeat split.
  - exact H1.
  - exact H2.
  - rewrite H3, H1, <- app_assoc. reflexivity.
  - rewrite H4, H2. reflexivity.
Qed.

(** C7. The prompt is a function of the effective question alone: two
    requests with equal effective questions, run in any two worlds, send
    the same completion request, whose two messages are the fixed system
    instruction and the template filled with that question. *)
Theorem prompt_determined_by_effective_question cq1 cq2 w1 w2 :
  effective_question cq1 = effective_question cq2 ->
  exists req,
    provider_calls (trace (snd (ask_coffee_endpoint create cq1 w1))) =
      (provider_calls (trace w1) ++ [req])%list /\
    provider_calls (trace (snd (ask_coffee_endpoint create cq2 w2))) =
      (provider_calls (trace w2) ++ [req])%list /\
    messages req =
      [ {| role := "system";
           content := "You are a knowledgeable coffee expert and barista." |};
        {| role := "user";
           content := coffee_prompt_template (effective_question cq1) |} ].
Proof.
  intros He. exists (request_of cq1). repeat split.
  - apply ask_coffee_endpoint_calls.
  - replace (request_of cq1) with (request_of cq2)
      by (unfold request_of; rewrite He; reflexivity).
    apply ask_coffee_endpoint_calls.
Qed.

(** C8. When the provider call returns but reading
    [choices[0].message.content] raises [e], the endpoint raises the
    [HTTPException] 500 with detail
    ["Failed to get coffee advice: " ++ str e].  So for every value the
    provider can return, the endpoint either returns an envelope or raises
    that 500. *)
Theorem malformed_response_becomes_500 cq w (response : pyval) :
  fst (create (request_of cq) (client w)) = Ok response ->
  let r := fst (ask_coffee_endpoint create cq w) in
  (forall e, choices_0_message_content response = Raise e ->
             r = Raise (HTTPException 500
                          ("Failed to get coffee advice: " ++ str e))) /\
  ((exists env, r = Ok env) \/
   (exists m, r = Raise (HTTPException 500
                           ("Failed to get coffee advice: " ++ m)))).
Proof.
  intros Hc r.
  assert (Hr : r =
    match choices_0_message_content response with
    | Ok ai => Ok (envelope (effective_question cq) ai)
    | Raise e =>
        fst (handle e (after_call cq w
                         (snd (create (request_of cq) (client w)))))
    end).
  { subst r. rewrite ask_coffee_endpoint_run.
    destruct (create (request_of cq) (client w)) as [[response' | e] s'];
      cbn [fst snd] in *; [| discriminate].
    injection Hc as ->.
    destruct (choices_0_message_content response); reflexivity. }
  assert (Hf : forall e, choices_0_message_content response = Raise e ->
     r = Raise (HTTPException 500 ("Failed to get coffee advice: " ++ str e))).
  { intros e Hx. rewrite Hr, Hx.
    destruct (access_error_classes e
                (choices_0_message_content_raises response e Hx)) as [Hn Hy].
    rewrite handle_Exception by assumption. reflexivity. }
  split; [exact Hf |].
  destruct (choices_0_message_content response) as [ai | e] eqn:Hx.
  - left. eexists. exact Hr.
  - right. exists (str e). apply Hf. reflexivity.
Qed.

(** C9. A question made of whitespace only is truthy, so neither the
    endpoint nor the service replaces it: the prompt is built from it and
    a success envelope returns it verbatim, not the default. *)
Theorem whitespace_question_is_kept cq (q : string) w :
  question cq = Some q ->
  isspace q = true ->
  truth (question cq) = true /\
  effective_question cq = q /\
  effective_question cq <> DEFAULT_QUESTION /\
  (exists req,
      provider_calls (trace (snd (ask_coffee_endpoint create cq w))) =
        (provider_calls (trace w) ++ [req])%list /\
      nth_error (messages req) 1 =
        Some {| role := "user"; content := coffee_prompt_template q |}) /\
  (forall env, fst (ask_coffee_endpoint create cq w) = Ok env ->
               lookup "question" env = Some (PyStr q)).
Proof.
  intros Hq Hs.
  assert (Hne : q <> "") by (intros ->; discriminate Hs).
  pose proof (effective_question_nonempty cq q Hq Hne) as He.
  repeat split.
  - rewrite Hq. destruct q; [contradiction | reflexivity].
  - exact He.
  - rewrite He. intros ->. discriminate Hs.
  - exists (request_of cq). split.
    + apply ask_coffee_endpoint_calls.
    + unfold request_of. cbn [messages nth_error]. rewrite He. reflexivity.
  - intros env Henv. rewrite <- He.
    exact (returned_question create cq w env Henv).
Qed.

(** C10. The detail of a 401 and of a 429 is a fixed string, the same for
    every request and every provider error; a 500 is one of the two
    variants that embed [str e] of the exception [e] the body failed
    with. *)
Theorem error_details cq w (sc : Z) (d : string) :
  fst (ask_coffee_endpoint create cq w) = Raise (HTTPException sc d) ->
  (sc = 401 ->
   d = "OpenAI API key not configured or invalid. Please set OPENAI_API_KEY environment variable.") /\
  (sc = 429 ->
   d = "OpenAI API rate limit exceeded. Please try again later.") /\
  (sc = 500 ->
   exists e, fails_with create cq w e /\
             (d = "OpenAI API error: " ++ str e \/
              d = "Failed to get coffee advice: " ++ str e)).
Proof.
  intros H.
  destruct (ask_coffee_endpoint_outcome create cq w) as
    [(response & ai & _ & _ & Hr) | (e & Hf & Hr)]; cbv zeta in Hr;
    rewrite Hr in H; [discriminate |].
  destruct (handle_cases e
              (after_call cq w (snd (create (request_of cq) (client w)))))
    as [[_ Hh] | [[_ Hh] | [[_ Hh] | [(_ & _ & Hh) | [Hn Hh]]]]];
    rewrite Hh in H.
  - injection H as <- <-.
    split; [| split]; intros Hsc; try discriminate Hsc. reflexivity.
  - injection H as <- <-.
    split; [| split]; intros Hsc; try discriminate Hsc. reflexivity.
  - injection H as <- <-.
    split; [| split]; intros Hsc; try discriminate Hsc.
    exists e. split; [exact Hf | left; reflexivity].
  - injection H as <- <-.
    split; [| split]; intros Hsc; try discriminate Hsc.
    exists e. split; [exact Hf | right; reflexivity].
  - injection H as ->. discriminate Hn.
Qed.

End Contract.

(* ================================================================== *)
(** ** What reaches the provider *)

Section Retries.

Context {Net : Type}.
Variable send : completion_request -> Net -> attempt * Net.
Implicit Types (c : wire Net) (req : completion_request).

(** With [remaining] retries left, a call sends its request at least once
    and at most [remaining + 1] times. *)
Lemma request_sent (remaining : nat) req c :
  exists k,
    (1 <= k <= S remaining)%nat /\
    sent (snd (request send remaining req c)) = (sent c ++ repeat req k)%list.
Proof.
  revert c. induction remaining as [| n IH]; intros c.
  - exists 1%nat. split; [lia |].
    cbn [request]. unfold post.
    destruct (send req (net c)) as [[response | st hdr msg | |] n'];
      reflexivity.
  - assert (Hagain : exists k,
      (1 <= k <= S (S n))%nat /\
      sent (snd (request send n req
                   {| net := snd (send req (net c));
                      sent := (sent c ++ [req])%list |})) =
      (sent c ++ repeat req k)%list).
    { destruct (IH {| net := snd (send req (net c));
                      sent := (sent c ++ [req])%list |}) as (k & Hk & Hs).
      exists (S k). split; [lia |].
      rewrite Hs. cbn [sent repeat]. rewrite <- app_assoc. reflexivity. }
    assert (Honce : exists k,
      (1 <= k <= S (S n))%nat /\
      (sent c ++ [req])%list = (sent c ++ repeat req k)%list).
    { exists 1%nat. split; [lia | reflexivity]. }
    cbn [request]. unfold post.
    destruct (send req (net c)) as [[response | st hdr msg | |] n'];
      cbn [snd] in Hagain.
    + exact Honce.
    + destruct (should_retry st hdr); [exact Hagain | exact Honce].
    + exact Hagain.
    + exact Hagain.
Qed.

(** A first attempt the SDK does not retry is the only one. *)
Lemma request_sent_once (remaining : nat) req c :
  retried (fst (send req (net c))) = false ->
  sent (snd (request send remaining req c)) = (sent c ++ [req])%list.
Proof.
  intros Hr. destruct remaining as [| n]; cbn [request]; unfold post;
    destruct (send req (net c)) as [[response | st hdr msg | |] n'];
    cbn [fst retried] in Hr; try discriminate; try reflexivity.
  rewrite Hr. reflexivity.
Qed.


End Retries.



(* ================================================================== *)
(** ** The contract on sample runs *)

(** An invalid key: the provider raises [AuthenticationError], the
    endpoint raises 401; a timeout, another [APIError], gives 500. *)
Lemma provider_failure_mapping_witness :
  (exists d,
      fst (ask_coffee_endpoint
             (constant_provider
                (Raise (Exc Cls.AuthenticationError "Incorrect API key provided")))
             {| question := Some "What makes perfect espresso?" |}
             fresh_world)
      = Raise (HTTPException 401 d)) /\
  fst (ask_coffee_endpoint
         (constant_provider (Raise (Exc Cls.APITimeoutError "Request timed out.")))
         {| question := None |} fresh_world)
  = Raise (HTTPException 500 "OpenAI API error: Request timed out.").
Proof.
  split.
  - apply (provider_failure_mapping
             (constant_provider
                (Raise (Exc Cls.AuthenticationError "Incorrect API key provided")))
             {| question := Some "What makes perfect espresso?" |}
             fresh_world
             (Exc Cls.AuthenticationError "Incorrect API key provided"));
      reflexivity.
  - apply (provider_failure_mapping
             (constant_provider
                (Raise (Exc Cls.APITimeoutError "Request timed out.")))
             {| question := None |} fresh_world
             (Exc Cls.APITimeoutError "Request timed out."));
      reflexivity.
Defined.

Lemma absent_or_empty_question_uses_default_witness :
  exists env,
    fst (ask_coffee_endpoint
           (constant_provider (Ok (completion_with (PyStr "Pour-over, ..."))))
           {| question := Some "" |} fresh_world) = Ok env /\
    lookup "question" env =
    Some (PyStr "What are the top 5 coffee brewing methods and their characteristics?").
Proof.
  eexists. split; [reflexivity |].
  apply (absent_or_empty_question_uses_default
           (constant_provider (Ok (completion_with (PyStr "Pour-over, ..."))))
           {| question := Some "" |} fresh_world).
  - right. reflexivity.
  - reflexivity.
Defined.

Lemma nonempty_question_returned_verbatim_witness :
  exists env,
    fst (ask_coffee_endpoint
           (constant_provider (Ok (completion_with (PyStr "Perfect espresso requires..."))))
           {| question := Some "What makes perfect espresso?" |} fresh_world)
    = Ok env /\
    lookup "question" env = Some (PyStr "What makes perfect espresso?").
Proof.
  eexists. split; [reflexivity |].
  apply (nonempty_question_returned_verbatim
           (constant_provider (Ok (completion_with (PyStr "Perfect espresso requires..."))))
           {| question := Some "What makes perfect espresso?" |}
           "What makes perfect espresso?" fresh_world).
  - reflexivity.
  - discriminate.
  - reflexivity.
Defined.

Lemma success_envelope_fields_witness :
  fst (ask_coffee_endpoint
         (constant_provider (Ok (completion_with (PyStr "T"))))
         {| question := Some "What makes perfect espresso?" |} fresh_world)
  = Ok [ ("status", PyStr "success");
         ("question", PyStr "What makes perfect espresso?");
         ("ai_response", PyStr "T");
         ("model_used", PyStr "gpt-3.5-turbo");
         ("coffee_expert", PyStr "☕ AI Barista") ].
Proof.
  apply (success_envelope_fields
           (constant_provider (Ok (completion_with (PyStr "T"))))
           {| question := Some "What makes perfect espresso?" |} fresh_world
           (completion_with (PyStr "T")) (PyStr "T"));
    reflexivity.
Defined.

(** An absent and an empty question, asked of providers in different
    states, send the same request. *)
Lemma prompt_determined_by_effective_question_witness :
  exists req,
    provider_calls
      (trace (snd (ask_coffee_endpoint
                     (constant_provider (Ok (completion_with (PyStr "T"))))
                     {| question := None |} fresh_world)))
    = [req] /\
    provider_calls
      (trace (snd (ask_coffee_endpoint
                     (constant_provider (Ok (completion_with (PyStr "T"))))
                     {| question := Some "" |}
                     {| client := 7%nat;
                        trace := [Log INFO "Root endpoint called"] |})))
    = [req].
Proof.
  destruct (prompt_determined_by_effective_question
              (constant_provider (Ok (completion_with (PyStr "T"))))
              {| question := None |} {| question := Some "" |}
              fresh_world
              {| client := 7%nat; trace := [Log INFO "Root endpoint called"] |}
              eq_refl) as (req & H1 & H2 & _).
  exists req. split; [exact H1 | exact H2].
Defined.

(** An empty [choices] list: [choices[0]] raises [IndexError]. *)
Lemma malformed_response_becomes_500_witness :
  fst (ask_coffee_endpoint
         (constant_provider (Ok completion_without_choices))
         {| question := Some "What makes perfect espresso?" |} fresh_world)
  = Raise (HTTPException 500
             "Failed to get coffee advice: list index out of range").
Proof.
  apply (proj1 (malformed_response_becomes_500
                  (constant_provider (Ok completion_without_choices))
                  {| question := Some "What makes perfect espresso?" |}
                  fresh_world completion_without_choices eq_refl)
           (Exc Cls.IndexError "list index out of range")).
  reflexivity.
Defined.

Lemma whitespace_question_is_kept_witness :
  exists env,
    fst (ask_coffee_endpoint
           (constant_provider (Ok (completion_with (PyStr "T"))))
           {| question := Some " " |} fresh_world) = Ok env /\
    lookup "question" env = Some (PyStr " ").
Proof.
  eexists. split; [reflexivity |].
  apply (whitespace_question_is_kept
           (constant_provider (Ok (completion_with (PyStr "T"))))
           {| question := Some " " |} " " fresh_world);
    reflexivity.
Defined.

Lemma error_details_witness :
  fst (ask_coffee_endpoint
         (constant_provider
            (Raise (Exc Cls.RateLimitError "Rate limit reached for requests")))
         {| question := Some "What makes perfect espresso?" |} fresh_world)
  = Raise (HTTPException 429 RATE_LIMIT_DETAIL) /\
  RATE_LIMIT_DETAIL = "OpenAI API rate limit exceeded. Please try again later.".
Proof.
  split; [reflexivity |].
  apply (error_details
           (constant_provider
              (Raise (Exc Cls.RateLimitError "Rate limit reached for requests")))
           {| question := Some "What makes perfect espresso?" |} fresh_world
           429 RATE_LIMIT_DETAIL);
    reflexivity.
Defined.

(* ================================================================== *)
(** ** Process start *)

Section StartupProperties.

Context {Tel : Type}.
Variable setup : string -> string -> Tel -> result unit * Tel.
Variable uvicorn_run : uvicorn_config -> result unit.
Implicit Types (w : world Tel) (p : process Tel) (e : exn).

(** The whole of [configure_monocle_telemetry], by the outcome of the
    setup call. *)
Lemma configure_monocle_telemetry_run w :
  configure_monocle_telemetry setup w =
  match setup "coffee-ai-assistant" "file" (client w) with
  | (Ok _, t') =>
      (Ok (Some true),
       {| client := t';
          trace := trace w ++
                   [Log INFO "Monocle AI telemetry configured successfully"] |})
  | (Raise e, t') =>
      if isinstance e Cls.Exception then
        (Ok None,
         {| client := t';
            trace := trace w ++
                     [Log ERROR ("Failed to configure Monocle AI telemetry: "
                                 ++ str e)] |})
      else (Raise e, {| client := t'; trace := trace w |})
  end.
Proof.
  unfold configure_monocle_telemetry, try_except, bind,
    call_setup_monocle_telemetry.
  destruct (setup "coffee-ai-assistant" "file" (client w)) as [[u | e] t'].
  - reflexivity.
  - cbn [find_clause]. destruct (isinstance e Cls.Exception); reflexivity.
Qed.

(** X1. A setup that fails with an [Exception] does not make
    [configure_monocle_telemetry] raise: it returns [None], after one
    setup call and one ERROR line that carries [str e]. *)
Theorem telemetry_failure_is_logged_not_raised w e :
  fst (setup "coffee-ai-assistant" "file" (client w)) = Raise e ->
  isinstance e Cls.Exception = true ->
  configure_monocle_telemetry setup w =
  (Ok None,
   {| client := snd (setup "coffee-ai-assistant" "file" (client w));
      trace := trace w ++
               [Log ERROR ("Failed to configure Monocle AI telemetry: "
                           ++ str e)] |}).
Proof.
  intros Hs Hx. rewrite configure_monocle_telemetry_run.
  destruct (setup "coffee-ai-assistant" "file" (client w)) as [[u | e'] t'];
    cbn [fst snd] in *; [discriminate |].
  injection Hs as ->. rewrite Hx. reflexivity.
Qed.

(** X2. [configure_monocle_telemetry] returns [True] exactly when the
    setup call returns, and [None] exactly when it raises an [Exception];
    it never returns [False], and the tracing library sees exactly one
    setup call, with workflow name "coffee-ai-assistant" and exporter
    list "file". *)
Theorem telemetry_result_reflects_setup w :
  let r := configure_monocle_telemetry setup w in
  let s := setup "coffee-ai-assistant" "file" (client w) in
  (fst r = Ok (Some true) <-> exists u, fst s = Ok u) /\
  (fst r = Ok None <->
   exists e, fst s = Raise e /\ isinstance e Cls.Exception = true) /\
  fst r <> Ok (Some false) /\
  client (snd r) = snd s.
Proof.
  cbv zeta. rewrite configure_monocle_telemetry_run.
  destruct (setup "coffee-ai-assistant" "file" (client w)) as [[u | e] t'];
    cbn [fst snd].
  - repeat split; try discriminate.
    + intros _. exists u. reflexivity.
    + intros (e & He & _). discriminate He.
  - destruct (isinstance e Cls.Exception) eqn:Hx; cbn [fst snd].
    + repeat split; try discriminate.
      * intros (u & Hu). discriminate Hu.
      * intros _. exists e. split; [reflexivity | exact Hx].
    + repeat split; try discriminate.
      * intros (u & Hu). discriminate Hu.
      * intros (e' & He & Hx'). injection He as <-. congruence.
Qed.

(** X3. Run as a script, [app.py] starts the server whatever the
    telemetry setup does short of an interpreter signal: after exactly one
    setup call it prints its banner and asks uvicorn once for "main:app" on
    0.0.0.0:8000 without reload, and ends as that call ends. *)
Theorem server_starts_whatever_telemetry_does p :
  (forall e,
      fst (setup "coffee-ai-assistant" "file" (client (telemetry p))) = Raise e ->
      isinstance e Cls.Exception = true) ->
  let r := app_py setup uvicorn_run "__main__" p in
  let config :=
    {| uvicorn_app := "main:app"; host := "0.0.0.0"; port := 8000;
       reload := false; log_level := "info" |} in
  fst r = uvicorn_run config /\
  servers (snd r) = (servers p ++ [config])%list /\
  stdout (snd r) =
    (stdout p ++ ["Starting FastAPI application with instrumentation..."])%list /\
  client (telemetry (snd r)) =
    snd (setup "coffee-ai-assistant" "file" (client (telemetry p))).
Proof.
  intros Hx. cbv zeta. unfold app_py.
  rewrite configure_monocle_telemetry_run.
  destruct (setup "coffee-ai-assistant" "file" (client (telemetry p)))
    as [[u | e] t']; cbn [fst snd] in *.
  - repeat split.
  - rewrite (Hx e eq_refl). repeat split.
Qed.

(** X4. Under any other module name (an import), [app.py] still makes
    its one setup call, but prints nothing and starts no server. *)
Theorem import_configures_telemetry_only (name : string) p :
  name <> "__main__" ->
  let r := app_py setup uvicorn_run name p in
  servers (snd r) = servers p /\
  stdout (snd r) = stdout p /\
  client (telemetry (snd r)) =
    snd (setup "coffee-ai-assistant" "file" (client (telemetry p))).
Proof.
  intros Hn. cbv zeta. unfold app_py.
  rewrite configure_monocle_telemetry_run.
  apply String.eqb_neq in Hn.
  destruct (setup "coffee-ai-assistant" "file" (client (telemetry p)))
    as [[u | e] t']; cbn [fst snd].
  - rewrite Hn. repeat split.
  - destruct (isinstance e Cls.Exception); [rewrite Hn |]; repeat split.
Qed.

End StartupProperties.

(* ================================================================== *)
(** ** The API key *)

Lemma lookup_app_single {A : Type} (k k' : string) (v : A)
  (d : list (string * A)) :
  lookup k (d ++ [(k', v)]) =
  match lookup k d with
  | Some x => Some x
  | None => if String.eqb k k' then Some v else None
  end.
Proof.
  induction d as [| [k0 v0] d IH]; simpl.
  - reflexivity.
  - destruct (String.eqb k k0); [reflexivity | exact IH].
Qed.

Lemma lookup_not_in {A : Type} (k : string) (d : list (string * A)) :
  ~ In k (keys d) -> lookup k d = None.
Proof.
  induction d as [| [k0 v0] d IH]; simpl; intros Hn.
  - reflexivity.
  - destruct (String.eqb_spec k k0) as [-> | Hne].
    + exfalso. apply Hn. left. reflexivity.
    + apply IH. intros Hin. apply Hn. right. exact Hin.
Qed.

(** What the environment holds after [load_dotenv()]. *)
Lemma load_dotenv_lookup (dotenv : list (string * option string))
  (env : environ) (k : string) :
  NoDup (keys dotenv) ->
  lookup k (load_dotenv dotenv env) =
  match lookup k env with
  | Some v => Some v
  | None =>
      match lookup k dotenv with
      | Some (Some v) => Some v
      | _ => None
      end
  end.
Proof.
  revert env.
  induction dotenv as [| [k0 v0] rest IH]; intros env Hnd; simpl.
  - destruct (lookup k env); reflexivity.
  - inversion Hnd as [| ? ? Hnotin Hnd']; subst.
    rewrite (IH _ Hnd').
    destruct (String.eqb_spec k k0) as [-> | Hne].
    + rewrite (lookup_not_in k0 rest Hnotin).
      destruct (lookup k0 env) as [x |] eqn:Hl.
      * rewrite Hl. reflexivity.
      * destruct v0 as [v |].
        -- rewrite lookup_app_single, Hl, String.eqb_refl. reflexivity.
        -- rewrite Hl. reflexivity.
    + destruct (lookup k0 env) as [x |]; [reflexivity |].
      destruct v0 as [v |]; [| reflexivity].
      rewrite lookup_app_single.
      apply String.eqb_neq in Hne. rewrite Hne.
      destruct (lookup k env); reflexivity.
Qed.

(** X13. The API key handed to the client: the process environment's
    OPENAI_API_KEY when it is set (the empty string included), otherwise
    the [.env] file's, otherwise the placeholder. *)
Theorem api_key_precedence (dotenv : list (string * option string))
  (env : environ) :
  NoDup (keys dotenv) ->
  (forall v, lookup "OPENAI_API_KEY" env = Some v ->
             openai_api_key dotenv env = v) /\
  (forall v, lookup "OPENAI_API_KEY" env = None ->
             lookup "OPENAI_API_KEY" dotenv = Some (Some v) ->
             openai_api_key dotenv env = v) /\
  (lookup "OPENAI_API_KEY" env = None ->
   lookup "OPENAI_API_KEY" dotenv = None \/
   lookup "OPENAI_API_KEY" dotenv = Some None ->
   openai_api_key dotenv env = "your-openai-api-key-here").
Proof.
  intros Hnd. unfold openai_api_key, os_getenv.
  rewrite (load_dotenv_lookup dotenv env "OPENAI_API_KEY" Hnd).
  split; [| split].
  - intros v ->. reflexivity.
  - intros v -> ->. reflexivity.
  - intros -> [-> | ->]; reflexivity.
Qed.

(* ================================================================== *)
(** ** The prompt *)

Lemma string_length_append (a b : string) :
  String.length (a ++ b) = (String.length a + String.length b)%nat.
Proof. induction a as [| c a IH]; simpl; [| rewrite IH]; reflexivity. Qed.

Lemma append_cancel_l (s a b : string) : s ++ a = s ++ b -> a = b.
Proof.
  induction s as [| c s IH]; simpl; intros H.
  - exact H.
  - injection H as H. exact (IH H).
Qed.

Lemma append_cancel_r (s a b : string) : a ++ s = b ++ s -> a = b.
Proof.
  revert b. induction a as [| c a IH]; intros [| c' b] H; simpl in H.
  - reflexivity.
  - exfalso. apply (f_equal String.length) in H. simpl in H.
    rewrite string_length_append in H. lia.
  - exfalso. apply (f_equal String.length) in H. simpl in H.
    rewrite string_length_append in H. lia.
  - injection H as -> H. f_equal. exact (IH b H).
Qed.

(** The question can be read back from the prompt. *)
Lemma coffee_prompt_template_inj (q1 q2 : string) :
  coffee_prompt_template q1 = coffee_prompt_template q2 -> q1 = q2.
Proof.
  unfold coffee_prompt_template. intros H.
  do 7 apply append_cancel_l in H.
  exact (append_cancel_r _ _ _ H).
Qed.

Lemma effective_question_not_empty (cq : CoffeeQuestion) :
  effective_question cq <> "".
Proof.
  unfold effective_question.
  destruct cq as [[[| a s] |]]; cbn; discriminate.
Qed.

(** X10. Two request bodies send the same completion request exactly when
    their effective questions are equal: the template loses nothing of the
    question. *)
Theorem same_request_iff_same_effective_question (cq1 cq2 : CoffeeQuestion) :
  request_of cq1 = request_of cq2 <->
  effective_question cq1 = effective_question cq2.
Proof.
  split.
  - intros H. apply coffee_prompt_template_inj.
    change (content (nth 1 (messages (request_of cq1))
                       {| role := ""; content := "" |}) =
            content (nth 1 (messages (request_of cq2))
                       {| role := ""; content := "" |})).
    rewrite H. reflexivity.
  - intros H. unfold request_of. rewrite H. reflexivity.
Qed.

(* ================================================================== *)
(** ** Requests and the trace *)

Section Requests.

Context {Sigma : Type}.
Variable create : completion_request -> Sigma -> result pyval * Sigma.
Implicit Types (cq : CoffeeQuestion) (w : world Sigma) (e : exn).

Lemma after_call_trace cq w (s' : Sigma) :
  trace (after_call cq w s') =
  (trace w ++
   [ Log INFO "Ask coffee endpoint called";
     Log INFO ("Asking OpenAI about coffee: " ++ effective_question cq);
     Create (request_of cq) ])%list.
Proof.
  unfold after_call, before_call, after. cbn [trace].
  rewrite <- !app_assoc. reflexivity.
Qed.

(** The clauses end in one of two ways, the same in every world. *)
Lemma handle_shape e :
  (exists sc d m, forall w,
      handle e w = (Raise (HTTPException sc d), after w [Log ERROR m])) \/
  (isinstance e Cls.Exception = false /\
   forall w, handle e w = (Raise e, w)).
Proof.
  destruct (isinstance e Cls.AuthenticationError) eqn:Ha.
  { left. do 3 eexists. intros w. apply handle_AuthenticationError, Ha. }
  destruct (isinstance e Cls.RateLimitError) eqn:Hr.
  { left. do 3 eexists. intros w. apply handle_RateLimitError, Hr. }
  destruct (isinstance e Cls.APIError) eqn:Hp.
  { left. do 3 eexists. intros w. apply handle_APIError; assumption. }
  destruct (isinstance e Cls.Exception) eqn:Hx.
  { left. do 3 eexists. intros w. apply handle_Exception; assumption. }
  right. split; [reflexivity |]. intros w. apply handle_uncaught, Hx.
Qed.

(** X5. The endpoint is the service behind one log line: rebinding an
    empty question to [None] on line 203 changes nothing, the service
    treats both alike. *)
Theorem endpoint_is_service_after_one_log_line cq w :
  ask_coffee_endpoint create cq w =
  ask_coffee_question create (question cq)
    (after w [Log INFO "Ask coffee endpoint called"]).
Proof.
  unfold ask_coffee_endpoint.
  unfold bind at 1. unfold logger_info at 1, emit at 1.
  rewrite bind_ret_r. fold (after w [Log INFO "Ask coffee endpoint called"]).
  destruct cq as [[[| a s] |]]; reflexivity.
Qed.

(** X6. Request bodies with equal effective questions are handled alike
    in every respect: same result, same provider state, same trace.  An
    absent question, an empty one and the default text spelled out cannot
    be told apart. *)
Theorem equal_effective_questions_equal_runs cq1 cq2 w :
  effective_question cq1 = effective_question cq2 ->
  ask_coffee_endpoint create cq1 w = ask_coffee_endpoint create cq2 w.
Proof.
  intros He. rewrite !ask_coffee_endpoint_run.
  unfold after_call, before_call, request_of. rewrite He. reflexivity.
Qed.

(** X7. Every request appends to the trace, in this order, the two INFO
    lines, the completion request, and then one closing line: the INFO
    success line when the envelope is returned, one ERROR line when an
    [HTTPException] is raised, nothing when an interpreter signal
    passes through. *)
Theorem request_trace_shape cq w :
  let run := ask_coffee_endpoint create cq w in
  exists closing,
    trace (snd run) =
      (trace w ++
       [ Log INFO "Ask coffee endpoint called";
         Log INFO ("Asking OpenAI about coffee: " ++ effective_question cq);
         Create (request_of cq) ] ++ closing)%list /\
    (((exists env, fst run = Ok env) /\
      closing = [Log INFO "Successfully received response from OpenAI"]) \/
     (exists sc d m,
         fst run = Raise (HTTPException sc d) /\ closing = [Log ERROR m]) \/
     (exists e,
         fst run = Raise e /\ isinstance e Cls.Exception = false /\
         closing = [])).
Proof.
  cbv zeta. rewrite ask_coffee_endpoint_run.
  assert (Hh : forall e s',
    exists closing,
      trace (snd (handle e (after_call cq w s'))) =
        (trace w ++
         [ Log INFO "Ask coffee endpoint called";
           Log INFO ("Asking OpenAI about coffee: " ++ effective_question cq);
           Create (request_of cq) ] ++ closing)%list /\
      ((exists sc d m,
          fst (handle e (after_call cq w s')) = Raise (HTTPException sc d) /\
          closing = [Log ERROR m]) \/
       (exists e',
          fst (handle e (after_call cq w s')) = Raise e' /\
          isinstance e' Cls.Exception = false /\ closing = []))).
  { intros e s'.
    destruct (handle_shape e) as [(sc & d & m & H) | [Hx H]]; rewrite H.
    - exists [Log ERROR m]. split.
      + cbn [snd]. unfold after at 1. cbn [trace].
        rewrite after_call_trace, <- app_assoc. reflexivity.
      + left. exists sc, d, m. split; reflexivity.
    - exists []. split.
      + cbn [snd]. rewrite after_call_trace, app_nil_r. reflexivity.
      + right. exists e. repeat split. exact Hx. }
  destruct (create (request_of cq) (client w)) as [[response | e] s'].
  - destruct (choices_0_message_content response) as [ai | e].
    + exists [Log INFO "Successfully received response from OpenAI"]. split.
      * cbn [snd]. unfold after at 1. cbn [trace].
        rewrite after_call_trace, <- app_assoc. reflexivity.
      * left. split; [eexists |]; reflexivity.
    + destruct (Hh e s') as (closing & Ht & Hc).
      exists closing. split; [exact Ht | right; exact Hc].
  - destruct (Hh e s') as (closing & Ht & Hc).
    exists closing. split; [exact Ht | right; exact Hc].
Qed.

(** X11. The question an envelope returns is never empty, and sending it
    back as the next question makes the service issue the same completion
    request again. *)
Theorem returned_question_round_trip cq w (env : pydict) :
  fst (ask_coffee_endpoint create cq w) = Ok env ->
  exists q,
    lookup "question" env = Some (PyStr q) /\
    q <> "" /\
    request_of {| question := Some q |} = request_of cq.
Proof.
  intros Henv. exists (effective_question cq). split; [| split].
  - exact (returned_question create cq w env Henv).
  - apply effective_question_not_empty.
  - unfold request_of.
    rewrite (effective_question_nonempty
               {| question := Some (effective_question cq) |}
               (effective_question cq) eq_refl
               (effective_question_not_empty cq)).
    reflexivity.
Qed.

(** X12. What a request returns, what it does to the provider and what
    it appends to the trace depend on the request body and on the
    provider alone, not on anything earlier requests left behind. *)
Theorem request_ignores_earlier_trace cq w1 w2 :
  client w1 = client w2 ->
  let run1 := ask_coffee_endpoint create cq w1 in
  let run2 := ask_coffee_endpoint create cq w2 in
  fst run1 = fst run2 /\
  client (snd run1) = client (snd run2) /\
  exists evs,
    trace (snd run1) = (trace w1 ++ evs)%list /\
    trace (snd run2) = (trace w2 ++ evs)%list.
Proof.
  intros Hc. cbv zeta. rewrite !ask_coffee_endpoint_run. rewrite <- Hc.
  assert (Hh : forall e s',
    fst (handle e (after_call cq w1 s')) = fst (handle e (after_call cq w2 s')) /\
    client (snd (handle e (after_call cq w1 s'))) =
      client (snd (handle e (after_call cq w2 s'))) /\
    exists evs,
      trace (snd (handle e (after_call cq w1 s'))) = (trace w1 ++ evs)%list /\
      trace (snd (handle e (after_call cq w2 s'))) = (trace w2 ++ evs)%list).
  { intros e s'.
    destruct (handle_shape e) as [(sc & d & m & H) | [_ H]]; rewrite !H;
      cbn [fst snd].
    - split; [reflexivity |]. split; [reflexivity |].
      eexists. cbn [after trace].
      rewrite !after_call_trace, <- !app_assoc. split; reflexivity.
    - split; [reflexivity |]. split; [reflexivity |].
      eexists. rewrite !after_call_trace. split; reflexivity. }
  destruct (create (request_of cq) (client w1)) as [[response | e] s'].
  - destruct (choices_0_message_content response) as [ai | e].
    + cbn [fst snd]. split; [reflexivity |]. split; [reflexivity |].
      eexists. cbn [after trace].
      rewrite !after_call_trace, <- !app_assoc. split; reflexivity.
    + apply Hh.
  - apply Hh.
Qed.

End Requests.

Section TwoProviders.

Context {Sigma : Type}.
Variables create1 create2 : completion_request -> Sigma -> result pyval * Sigma.

(** X8. What an authentication failure, or a rate-limit failure, says is
    observable nowhere: two providers that fail alike with different
    exception objects lead to the same result and the same trace, log
    lines included. *)
Theorem auth_and_rate_limit_text_is_dropped (cq : CoffeeQuestion)
  (w : world Sigma) (e1 e2 : exn) (s' : Sigma) :
  create1 (request_of cq) (client w) = (Raise e1, s') ->
  create2 (request_of cq) (client w) = (Raise e2, s') ->
  (isinstance e1 Cls.AuthenticationError = true /\
   isinstance e2 Cls.AuthenticationError = true) \/
  (isinstance e1 Cls.RateLimitError = true /\
   isinstance e2 Cls.RateLimitError = true) ->
  ask_coffee_endpoint create1 cq w = ask_coffee_endpoint create2 cq w.
Proof.
  intros H1 H2 Hk. rewrite !ask_coffee_endpoint_run, H1, H2.
  destruct Hk as [[Ha1 Ha2] | [Hr1 Hr2]].
  - rewrite !handle_AuthenticationError by assumption. reflexivity.
  - rewrite !handle_RateLimitError by assumption. reflexivity.
Qed.

End TwoProviders.

(* ================================================================== *)
(** ** Sample runs of the further properties *)

Lemma telemetry_failure_is_logged_not_raised_witness :
  configure_monocle_telemetry
    (constant_setup (Raise (Exc (Cls.OtherException "ValueError")
                              "unknown exporter")))
    fresh_world
  = (Ok None,
     {| client := 1%nat;
        trace := [Log ERROR
                    "Failed to configure Monocle AI telemetry: unknown exporter"] |}).
Proof.
  apply (telemetry_failure_is_logged_not_raised
           (constant_setup (Raise (Exc (Cls.OtherException "ValueError")
                                     "unknown exporter")))
           fresh_world
           (Exc (Cls.OtherException "ValueError") "unknown exporter"));
    reflexivity.
Defined.

Lemma server_starts_whatever_telemetry_does_witness :
  servers (snd (app_py
                  (constant_setup (Raise (Exc (Cls.OtherException "ValueError")
                                            "unknown exporter")))
                  graceful_server "__main__" fresh_process))
  = [ {| uvicorn_app := "main:app"; host := "0.0.0.0"; port := 8000;
         reload := false; log_level := "info" |} ].
Proof.
  apply (server_starts_whatever_telemetry_does
           (constant_setup (Raise (Exc (Cls.OtherException "ValueError")
                                     "unknown exporter")))
           graceful_server fresh_process).
  intros e H. injection H as <-. reflexivity.
Defined.

Lemma import_configures_telemetry_only_witness :
  servers (snd (app_py (constant_setup (Ok tt)) graceful_server "app"
                  fresh_process)) = [] /\
  client (telemetry (snd (app_py (constant_setup (Ok tt)) graceful_server "app"
                            fresh_process)))
  = 1%nat.
Proof.
  destruct (import_configures_telemetry_only
              (constant_setup (Ok tt)) graceful_server "app" fresh_process)
    as (H1 & _ & H3).
  - discriminate.
  - split; [exact H1 | exact H3].
Defined.

Lemma api_key_precedence_witness :
  openai_api_key [("OPENAI_API_KEY", Some "sk-from-file")]
                 [("PATH", "/usr/bin"); ("OPENAI_API_KEY", "")] = "" /\
  openai_api_key [("OPENAI_API_KEY", Some "sk-from-file")]
                 [("PATH", "/usr/bin")] = "sk-from-file" /\
  openai_api_key [] [("PATH", "/usr/bin")] = "your-openai-api-key-here".
Proof.
  split; [| split].
  - refine (proj1 (api_key_precedence
                     [("OPENAI_API_KEY", Some "sk-from-file")]
                     [("PATH", "/usr/bin"); ("OPENAI_API_KEY", "")] _)
              "" eq_refl).
    repeat constructor. simpl. tauto.
  - refine (proj1 (proj2 (api_key_precedence
                            [("OPENAI_API_KEY", Some "sk-from-file")]
                            [("PATH", "/usr/bin")] _))
              "sk-from-file" eq_refl eq_refl).
    repeat constructor. simpl. tauto.
  - refine (proj2 (proj2 (api_key_precedence [] [("PATH", "/usr/bin")] _))
              eq_refl (or_introl eq_refl)).
    constructor.
Defined.

Lemma equal_effective_questions_equal_runs_witness :
  ask_coffee_endpoint
    (constant_provider (Ok (completion_with (PyStr "T"))))
    {| question := None |} fresh_world
  = ask_coffee_endpoint
      (constant_provider (Ok (completion_with (PyStr "T"))))
      {| question :=
           Some "What are the top 5 coffee brewing methods and their characteristics?" |}
      fresh_world.
Proof.
  apply (equal_effective_questions_equal_runs
           (constant_provider (Ok (completion_with (PyStr "T"))))).
  reflexivity.
Defined.

Lemma returned_question_round_trip_witness :
  exists q,
    lookup "question" (envelope DEFAULT_QUESTION (PyStr "T")) = Some (PyStr q) /\
    q <> "" /\
    request_of {| question := Some q |} = request_of {| question := Some "" |}.
Proof.
  apply (returned_question_round_trip
           (constant_provider (Ok (completion_with (PyStr "T"))))
           {| question := Some "" |} fresh_world).
  reflexivity.
Defined.

Lemma request_ignores_earlier_trace_witness :
  fst (ask_coffee_endpoint
         (constant_provider (Ok (completion_with (PyStr "T"))))
         {| question := Some "What makes perfect espresso?" |} fresh_world)
  = fst (ask_coffee_endpoint
           (constant_provider (Ok (completion_with (PyStr "T"))))
           {| question := Some "What makes perfect espresso?" |}
           {| client := O; trace := [Log INFO "Root endpoint called"] |}).
Proof.
  apply (request_ignores_earlier_trace
           (constant_provider (Ok (completion_with (PyStr "T"))))
           {| question := Some "What makes perfect espresso?" |}
           fresh_world
           {| client := O; trace := [Log INFO "Root endpoint called"] |}).
  reflexivity.
Defined.

Lemma auth_and_rate_limit_text_is_dropped_witness :
  ask_coffee_endpoint
    (constant_provider (Raise (Exc Cls.AuthenticationError "Incorrect API key provided: sk-a")))
    {| question := None |} fresh_world
  = ask_coffee_endpoint
      (constant_provider (Raise (Exc Cls.AuthenticationError "You must be a member of an organization")))
      {| question := None |} fresh_world.
Proof.
  apply (auth_and_rate_limit_text_is_dropped
           (constant_provider (Raise (Exc Cls.AuthenticationError "Incorrect API key provided: sk-a")))
           (constant_provider (Raise (Exc Cls.AuthenticationError "You must be a member of an organization")))
           {| question := None |} fresh_world
           (Exc Cls.AuthenticationError "Incorrect API key provided: sk-a")
           (Exc Cls.AuthenticationError "You must be a member of an organization")
           1%nat).
  - reflexivity.
  - reflexivity.
  - left. split; reflexivity.
Defined.
